(** * Cascading share retrieval and the gateway configuration of celestia-node

    Shallow embedding of
    - the cascade engine [cascadeGetters] and the [CascadeGetter] adapter of
      package [share/getters], driven by [TestCascade] and
      [TestCascadeGetter] (nodebuilder/settings.go);
    - [gateway.Config], [DefaultConfig] and [Config.Validate]
      (unnamed/part_000), with the parts of Go's [net.ParseIP] and
      [strconv.Atoi] that [Validate] relies on. *)

From Stdlib Require Import List String Ascii Arith Lia ZArith Bool.
Import ListNotations.
Open Scope string_scope.
Set Warnings "-register-all".

(** ** Go errors *)

(** The values of Go's [error] interface that occur in this package:
    strings built by [errors.New] / [fmt.Errorf], the two context errors,
    the aggregate of [errors.Join], [strconv.NumError] with its two
    sentinels, and the "no getters" failure of the cascade. *)
Inductive error : Type :=
| ErrString (msg : string)
| Canceled
| DeadlineExceeded
| Joined (errs : list error)
| NumError (Func Num : string) (Err : error)
| ErrSyntax
| ErrRange
| ErrNoGetters.

Definition newline : string := String (ascii_of_nat 10) EmptyString.
Definition dquote : string := String (ascii_of_nat 34) EmptyString.

(** [strconv.Quote]; escaping of non-printable characters is not modelled. *)
Definition Quote (s : string) : string := dquote ++ s ++ dquote.

(** [err.Error()]. A joined error prints its causes one per line. *)
Fixpoint Error (e : error) : string :=
  match e with
  | ErrString msg => msg
  | Canceled => "context canceled"
  | DeadlineExceeded => "context deadline exceeded"
  | Joined errs =>
      (fix join (l : list error) : string :=
         match l with
         | [] => ""
         | [x] => Error x
         | x :: rest => Error x ++ newline ++ join rest
         end) errs
  | NumError Func Num Err =>
      "strconv." ++ Func ++ ": parsing " ++ Quote Num ++ ": " ++ Error Err
  | ErrSyntax => "invalid syntax"
  | ErrRange => "value out of range"
  | ErrNoGetters => "no getters available"
  end.

(** [strings.Count(s, "\n")]. *)
Fixpoint count_nl (s : string) : nat :=
  match s with
  | EmptyString => 0
  | String c rest => (if Ascii.eqb c (ascii_of_nat 10) then 1 else 0) + count_nl rest
  end.

(** ** Data of the share package *)

Definition Share := list Byte.byte.

Record Root := mkRoot { RowRoots : list (list Byte.byte); ColumnRoots : list (list Byte.byte) }.

Record ExtendedDataSquare := mkEDS { eds_shares : list Share }.

(** Go's [var zero V]. *)
Class GoZero (V : Type) := zero : V.
#[export] Instance GoZero_ptr {A} : GoZero (option A) := None.
#[export] Instance GoZero_slice {A} : GoZero (list A) := [].

(** ** Contexts and getters

    A [context.Context] is observed through [ctx.Err()]: [None] while the
    context is live, [Some cause] once it is canceled or its deadline has
    passed. An operation that receives a context is a state transformer on
    this observation: it is run with [ctx.Err()] as it is when the call
    starts and hands back [ctx.Err()] as it is when the call returns, which
    records a cancellation by the caller that happens during the call. *)
Definition Context := option error.

Definition CtxOp (A : Type) := Context -> A * Context.

(** The [share.Getter] interface. [gid] is the identity of the interface
    value (the pointer the cascade holds). *)
Record Getter := mkGetter {
  gid : nat;
  GetShare : option Root -> nat -> nat -> CtxOp (Share * option error);
  GetEDS : option Root -> CtxOp (option ExtendedDataSquare * option error)
}.

(** ** The cascade engine *)

Section Cascade.
Context {V : Type} `{GoZero V}.

(** Modelled from the spec: [cascadeGetters] of share/getters/cascade.go,
    whose source is not part of this tree (only its test is). Backends are
    tried strictly in order; the first nil error wins; on an error the
    outer context's own [Err()] is queried: when it is set, that cause is
    returned alone, otherwise the error is accumulated and the next backend
    is tried; on exhaustion the accumulated errors are returned as one
    joined error, and an empty accumulator is the explicit "no getters"
    failure. Besides the result and the final context, [cascade_run]
    returns the identities of the getters it invoked, in invocation
    order. *)
Fixpoint cascade_run (get : Getter -> CtxOp (V * option error))
    (acc : list error) (getters : list Getter) (ctx : Context)
    : (V * option error) * Context * list nat :=
  match getters with
  | [] =>
      let err := match acc with [] => ErrNoGetters | _ => Joined acc end in
      ((zero, Some err), ctx, [])
  | g :: rest =>
      let '((val, getErr), ctx') := get g ctx in
      match getErr with
      | None => ((val, None), ctx', [gid g])
      | Some e =>
          match ctx' with
          | Some cause => ((zero, Some cause), ctx', [gid g])
          | None =>
              let '(res, ctx'', invoked) := cascade_run get (acc ++ [e]) rest ctx' in
              (res, ctx'', gid g :: invoked)
          end
      end
  end.

(** [cascadeGetters(ctx, getters, get)]. *)
Definition cascadeGetters (ctx : Context) (getters : list Getter)
    (get : Getter -> CtxOp (V * option error)) : (V * option error) * Context :=
  let '(res, ctx', _) := cascade_run get [] getters ctx in (res, ctx').

(** The getters a call invokes. *)
Definition invoked (ctx : Context) (getters : list Getter)
    (get : Getter -> CtxOp (V * option error)) : list nat :=
  let '(_, _, inv) := cascade_run get [] getters ctx in inv.

End Cascade.

(** Modelled from the spec: [NewCascadeGetter] and the methods of
    [CascadeGetter], each delegating to the engine with the matching
    operation. *)
Definition NewCascadeGetter (id : nat) (getters : list Getter) : Getter :=
  {| gid := id;
     GetShare := fun root row col ctx =>
       cascadeGetters ctx getters (fun g => GetShare g root row col);
     GetEDS := fun root ctx =>
       cascadeGetters ctx getters (fun g => GetEDS g root) |}.

(** ** The mocks of [TestCascade]

    Each mock answers [GetEDS] without touching the context; a [GetShare]
    call is not expected by the test and fails. *)
Definition mock (id : nat) (eds : Context -> option ExtendedDataSquare * option error) : Getter :=
  {| gid := id;
     GetShare := fun _ _ _ ctx => (([] : Share, Some (ErrString "unexpected call")), ctx);
     GetEDS := fun _ ctx => (eds ctx, ctx) |}.

Definition timeoutGetter : Getter := mock 1 (fun _ => (None, Some DeadlineExceeded)).
Definition immediateFailGetter : Getter :=
  mock 2 (fun _ => (None, Some (ErrString "second getter fails immediately"))).
Definition successGetter : Getter := mock 3 (fun _ => (None, None)).
Definition ctxGetter : Getter := mock 4 (fun ctx => (None, ctx)).

(** [get := func(ctx, get) { return get.GetEDS(ctx, nil) }]. *)
Definition getEDS (g : Getter) : CtxOp (option ExtendedDataSquare * option error) :=
  GetEDS g None.

(** A context canceled by [cancel()]. *)
Definition canceled_ctx : Context := Some Canceled.

(** ** Go's [net.ParseIP] (Go 1.19, before the switch to [netip])

    An address is a 16-byte slice, [None] is the nil [IP]. *)
Definition IP := list Z.

Definition byte_of (c : ascii) : Z := Z.of_nat (nat_of_ascii c).

(** [big = 0xFFFFFF], the bound of [dtoi] and [xtoi]. *)
Definition big : Z := 16777215.

(** [dtoi]: decimal prefix of [s]; returns number, characters consumed,
    success. [i] counts the characters already read. *)
Fixpoint dtoi_loop (s : string) (n : Z) (i : nat) : Z * nat * bool :=
  match s with
  | String c rest =>
      if (48 <=? byte_of c)%Z && (byte_of c <=? 57)%Z then
        let n' := (n * 10 + (byte_of c - 48))%Z in
        if (big <=? n')%Z then (big, i, false) else dtoi_loop rest n' (S i)
      else if Nat.eqb i 0 then (0%Z, 0, false) else (n, i, true)
  | EmptyString => if Nat.eqb i 0 then (0%Z, 0, false) else (n, i, true)
  end.

Definition dtoi (s : string) : Z * nat * bool := dtoi_loop s 0 0.

(** [xtoi]: hexadecimal prefix of [s]. *)
Fixpoint xtoi_loop (s : string) (n : Z) (i : nat) : Z * nat * bool :=
  let stop := if Nat.eqb i 0 then (0%Z, 0, false) else (n, i, true) in
  match s with
  | String c rest =>
      let b := byte_of c in
      let digit :=
        if (48 <=? b)%Z && (b <=? 57)%Z then Some (b - 48)%Z
        else if (97 <=? b)%Z && (b <=? 102)%Z then Some (b - 97 + 10)%Z
        else if (65 <=? b)%Z && (b <=? 70)%Z then Some (b - 65 + 10)%Z
        else None in
      match digit with
      | Some d =>
          let n' := (n * 16 + d)%Z in
          if (big <=? n')%Z then (0%Z, i, false) else xtoi_loop rest n' (S i)
      | None => stop
      end
  | EmptyString => stop
  end.

Definition xtoi (s : string) : Z * nat * bool := xtoi_loop s 0 0.

Definition first_is (c : ascii) (s : string) : bool :=
  match s with String c' _ => Ascii.eqb c c' | EmptyString => false end.

(** [IPv4(a, b, c, d)]: the 16-byte form with the v4-in-v6 prefix. *)
Definition IPv4 (a b c d : Z) : IP :=
  [0; 0; 0; 0; 0; 0; 0; 0; 0; 0; 255; 255; a; b; c; d]%Z.

(** The loop of [parseIPv4]: [k] octets remain, [i0] tells whether this
    is the first one; the parsed octets are returned. *)
Fixpoint parseIPv4_loop (k : nat) (i0 : bool) (s : string) : option (list Z) :=
  match k with
  | O => if String.eqb s "" then Some [] else None
  | S k' =>
      if String.eqb s "" then None else
      let s := if i0 then Some s
               else if first_is "." s then Some (substring 1 (length s - 1) s) else None in
      match s with
      | None => None
      | Some s =>
          let '(n, c, ok) := dtoi s in
          if negb ok || (255 <? n)%Z then None
          else if Nat.ltb 1 c && first_is "0" s then None
          else option_map (cons n) (parseIPv4_loop k' false (substring c (length s - c) s))
      end
  end.

Definition parseIPv4 (s : string) : option IP :=
  match parseIPv4_loop 4 true s with
  | Some [a; b; c; d] => Some (IPv4 a b c d)
  | _ => None
  end.

(** [ip[j] = v] on a slice of length 16. *)
Fixpoint set_nth (l : list Z) (j : nat) (v : Z) : list Z :=
  match l, j with
  | [], _ => []
  | _ :: t, O => v :: t
  | x :: t, S j' => x :: set_nth t j' v
  end.

(** One step of the hex-group loop of [parseIPv6]. The state is
    [(ip, ellipsis, s, i)], [ellipsis = None] standing for [-1]. The
    result is [None] for [return nil], [inl st] to go round again and
    [inr st] for [break]. *)
Definition parseIPv6_step (ip : IP) (ellipsis : option nat) (s : string) (i : nat)
    : option ((IP * option nat * string * nat) + (IP * option nat * string * nat)) :=
  let '(n, c, ok) := xtoi s in
  if negb ok || (65535 <? n)%Z then None
  else if Nat.ltb c (length s) && first_is "." (substring c 1 s) then
    if (match ellipsis with None => true | Some _ => false end) && negb (Nat.eqb i 12) then None
    else if Nat.ltb 16 (i + 4) then None
    else match parseIPv4 s with
         | None => None
         | Some ip4 =>
             let ip := set_nth ip i (nth 12 ip4 0%Z) in
             let ip := set_nth ip (i + 1) (nth 13 ip4 0%Z) in
             let ip := set_nth ip (i + 2) (nth 14 ip4 0%Z) in
             let ip := set_nth ip (i + 3) (nth 15 ip4 0%Z) in
             Some (inr (ip, ellipsis, "", i + 4))
         end
  else
    let ip := set_nth ip i (Z.shiftr n 8 mod 256)%Z in
    let ip := set_nth ip (i + 1) (n mod 256)%Z in
    let i := i + 2 in
    let s := substring c (length s - c) s in
    if String.eqb s "" then Some (inr (ip, ellipsis, s, i))
    else if negb (first_is ":" s) || Nat.eqb (length s) 1 then None
    else
      let s := substring 1 (length s - 1) s in
      if first_is ":" s then
        match ellipsis with
        | Some _ => None
        | None =>
            let s := substring 1 (length s - 1) s in
            if String.eqb s "" then Some (inr (ip, Some i, s, i))
            else Some (inl (ip, Some i, s, i))
        end
      else Some (inl (ip, ellipsis, s, i)).

(** [for i < IPv6len { ... }]: every round adds at least 2 to [i], so 8
    rounds of fuel reach the bound. *)
Fixpoint parseIPv6_loop (fuel : nat) (ip : IP) (ellipsis : option nat) (s : string) (i : nat)
    : option (IP * option nat * string * nat) :=
  if Nat.leb 16 i then Some (ip, ellipsis, s, i) else
  match fuel with
  | O => Some (ip, ellipsis, s, i)
  | S fuel' =>
      match parseIPv6_step ip ellipsis s i with
      | None => None
      | Some (inr st) => Some st
      | Some (inl (ip, ellipsis, s, i)) => parseIPv6_loop fuel' ip ellipsis s i
      end
  end.

(** [for j := i - 1; j >= ellipsis; j-- { ip[j+n] = ip[j] }], [cnt] rounds. *)
Fixpoint copy_back (ip : IP) (j cnt n : nat) : IP :=
  match cnt with
  | O => ip
  | S cnt' => copy_back (set_nth ip (j + n) (nth j ip 0%Z)) (j - 1) cnt' n
  end.

(** [for j := ellipsis + n - 1; j >= ellipsis; j-- { ip[j] = 0 }]. *)
Fixpoint zero_back (ip : IP) (j cnt : nat) : IP :=
  match cnt with
  | O => ip
  | S cnt' => zero_back (set_nth ip j 0%Z) (j - 1) cnt'
  end.

Definition parseIPv6 (s : string) : option IP :=
  let ip := repeat 0%Z 16 in
  let '(ellipsis, s) :=
    if Nat.leb 2 (length s) && first_is ":" s && first_is ":" (substring 1 1 s)
    then (Some 0, substring 2 (length s - 2) s) else (None, s) in
  if (match ellipsis with Some _ => true | None => false end) && String.eqb s ""
  then Some ip
  else
    match parseIPv6_loop 8 ip ellipsis s 0 with
    | None => None
    | Some (ip, ellipsis, s, i) =>
        if negb (String.eqb s "") then None
        else if Nat.ltb i 16 then
          match ellipsis with
          | None => None
          | Some e =>
              let n := 16 - i in
              let ip := copy_back ip (i - 1) (i - e) n in
              Some (zero_back ip (e + n - 1) n)
          end
        else match ellipsis with Some _ => None | None => Some ip end
    end.

(** [net.ParseIP]: the first '.' or ':' decides the family. *)
Fixpoint ParseIP_scan (s full : string) : option IP :=
  match s with
  | EmptyString => None
  | String c rest =>
      if Ascii.eqb c "." then parseIPv4 full
      else if Ascii.eqb c ":" then parseIPv6 full
      else ParseIP_scan rest full
  end.

Definition ParseIP (s : string) : option IP := ParseIP_scan s s.

(** ** Go's [strconv.Atoi] on a 64-bit platform (Go 1.19) *)

Definition maxUint64 : Z := (2 ^ 64 - 1)%Z.

(** The fast path: [for _, ch := range []byte(s) { ch -= '0'; ... }];
    [None] is the syntax error. *)
Fixpoint atoi_fast (s : string) (n : Z) : option Z :=
  match s with
  | EmptyString => Some n
  | String ch rest =>
      let d := ((byte_of ch - 48) mod 256)%Z in
      if (9 <? d)%Z then None else atoi_fast rest (n * 10 + d)%Z
  end.

(** The digit loop of [ParseUint(s, 10, 64)]: the value reached and the
    sentinel of the error, if any. *)
Fixpoint parseUint_loop (s : string) (n : Z) : Z * option error :=
  match s with
  | EmptyString => (n, None)
  | String c rest =>
      let b := byte_of c in
      let d := if (48 <=? b)%Z && (b <=? 57)%Z then (b - 48)%Z
               else if (97 <=? b)%Z && (b <=? 122)%Z then (b - 97 + 10)%Z
               else if (65 <=? b)%Z && (b <=? 90)%Z then (b - 65 + 10)%Z
               else 255%Z in
      if (10 <=? d)%Z then (0%Z, Some ErrSyntax)
      else if (maxUint64 / 10 + 1 <=? n)%Z then (maxUint64, Some ErrRange)
      else
        let n' := (n * 10)%Z in
        let n1 := ((n' + d) mod 2 ^ 64)%Z in
        if (n1 <? n')%Z || (maxUint64 <? n1)%Z then (maxUint64, Some ErrRange)
        else parseUint_loop rest n1
  end.

(** [ParseInt(s, 10, 0)] with the function name of its errors. *)
Definition ParseInt (fn s : string) : Z * option error :=
  match s with
  | EmptyString => (0%Z, Some (NumError fn s ErrSyntax))
  | String c rest =>
      let '(neg, digits) :=
        if Ascii.eqb c "+" then (false, rest)
        else if Ascii.eqb c "-" then (true, rest) else (false, s) in
      let '(un, err) :=
        match digits with
        | EmptyString => (0%Z, Some ErrSyntax)
        | _ => parseUint_loop digits 0
        end in
      match err with
      | Some ErrRange | None =>
          let cutoff := (2 ^ 63)%Z in
          if negb neg && (cutoff <=? un)%Z then ((cutoff - 1)%Z, Some (NumError fn s ErrRange))
          else if neg && (cutoff <? un)%Z then ((- cutoff)%Z, Some (NumError fn s ErrRange))
          else ((if neg then - un else un)%Z, None)
      | Some e => (0%Z, Some (NumError fn s e))
      end
  end.

Definition Atoi (s : string) : Z * option error :=
  let sLen := length s in
  if Nat.ltb 0 sLen && Nat.ltb sLen 19 then
    let s0 := s in
    let signed := first_is "-" s || first_is "+" s in
    let s := if signed then substring 1 (sLen - 1) s else s in
    if signed && String.eqb s "" then (0%Z, Some (NumError "Atoi" s0 ErrSyntax))
    else match atoi_fast s 0 with
         | None => (0%Z, Some (NumError "Atoi" s0 ErrSyntax))
         | Some n => ((if first_is "-" s0 then - n else n)%Z, None)
         end
  else ParseInt "Atoi" s.

(** ** Package gateway (unnamed/part_000) *)

Record Config := mkConfig { Address : string; Port : string }.

Definition DefaultConfig : Config := {| Address := "0.0.0.0"; Port := "26658" |}.

Definition Validate (cfg : Config) : option error :=
  match ParseIP (Address cfg) with
  | None => Some (ErrString ("service/gateway: invalid listen address format: " ++ Address cfg))
  | Some _ =>
      let '(_, err) := Atoi (Port cfg) in
      match err with
      | Some e => Some (ErrString ("service/gateway: invalid port: " ++ Error e))
      | None => None
      end
  end.

(** ** Package cmd: node flags (cmd/flags_node.go) *)

(** [node.Type]: the three node types of the [switch] in [WithMetrics]
    and any other value of the underlying integer. *)
Inductive NodeType : Type :=
| Bridge
| Light
| Full
| OtherType (raw : nat).

(** What the process and the libraries answer: environment variables,
    [os.UserHomeDir], [homedir.Dir], [filepath.Clean] and [filepath.Join],
    the Unicode path of [strings.ToLower] and [node.Type.String]. *)
Record OSEnv := {
  Getenv : string -> string;
  UserHomeDir : string * option error;
  HomeDir : string * option error;
  FilepathClean : string -> string;
  FilepathJoin : string -> string -> string;
  UnicodeToLowerMap : string -> string;
  TypeString : NodeType -> string
}.

Definition nodeStoreFlag : string := "node.store".
Definition nodeConfigFlag : string := "node.config".

(** A [cobra.Command] through [cmd.Flag(name).Value.String()]. *)
Record Command := { FlagValue : string -> string }.

(** The values the cmd package attaches to its context: the node type read
    by [NodeType(ctx)], the store path of [WithStorePath]/[StorePath] and
    the config of [WithNodeConfig]. *)
Record CmdContext (NodeConfig : Type) := mkCmdContext {
  ctxNodeType : NodeType;
  ctxStorePath : option string;
  ctxNodeConfig : option NodeConfig
}.
Arguments mkCmdContext {NodeConfig}.
Arguments ctxNodeType {NodeConfig}.
Arguments ctxStorePath {NodeConfig}.
Arguments ctxNodeConfig {NodeConfig}.

Definition WithStorePath {C} (ctx : CmdContext C) (path : string) : CmdContext C :=
  mkCmdContext (ctxNodeType ctx) (Some path) (ctxNodeConfig ctx).

Definition StorePath {C} (ctx : CmdContext C) : string :=
  match ctxStorePath ctx with Some p => p | None => "" end.

Definition WithNodeConfig {C} (ctx : CmdContext C) (cfg : C) : CmdContext C :=
  mkCmdContext (ctxNodeType ctx) (ctxStorePath ctx) (Some cfg).

(** [strings.ToLower]: the ASCII path lowers 'A'..'Z'; a string with a
    byte >= 0x80 goes through [Map(unicode.ToLower, s)]. *)
Definition isUpperByte (c : ascii) : bool :=
  (65 <=? byte_of c)%Z && (byte_of c <=? 90)%Z.

Fixpoint isASCII (s : string) : bool :=
  match s with
  | EmptyString => true
  | String c rest => (byte_of c <? 128)%Z && isASCII rest
  end.

Fixpoint lowerASCII (s : string) : string :=
  match s with
  | EmptyString => EmptyString
  | String c rest =>
      String (if isUpperByte c then ascii_of_nat (nat_of_ascii c + 32) else c) (lowerASCII rest)
  end.

Definition ToLower (env : OSEnv) (s : string) : string :=
  if isASCII s then lowerASCII s else UnicodeToLowerMap env s.

Definition DefaultNodeStorePath (env : OSEnv) (tp network : string) : string * option error :=
  let home := Getenv env "CELESTIA_HOME" in
  let home :=
    if String.eqb home "" then
      match UserHomeDir env with
      | (_, Some err) => inr err
      | (h, None) => inl h
      end
    else inl home in
  match home with
  | inr err => ("", Some err)
  | inl home =>
      (home ++ "/.celestia-" ++ ToLower env tp ++ "-" ++ ToLower env network, None)
  end.

(** [homedir.Expand] (github.com/mitchellh/go-homedir). *)
Definition Expand (env : OSEnv) (path : string) : string * option error :=
  let expandHome (rest : string) :=
    match HomeDir env with
    | (_, Some err) => ("", Some err)
    | (dir, None) => (FilepathJoin env dir rest, None)
    end in
  match path with
  | EmptyString => (path, None)
  | String c rest =>
      if negb (Ascii.eqb c "~") then (path, None)
      else match rest with
           | String c2 _ =>
               if negb (Ascii.eqb c2 "/") && negb (Ascii.eqb c2 "\") then
                 ("", Some (ErrString "cannot expand user-specific home dir"))
               else expandHome rest
           | EmptyString => expandHome rest
           end
  end.

(** [ParseNodeFlags]. [LoadConfig] is [nodebuilder.LoadConfig]; the error
    built by [fmt.Errorf] with [%w] is represented by its message. *)
Definition ParseNodeFlags {C : Type} (env : OSEnv) (LoadConfig : string -> C * option error)
    (ctx : CmdContext C) (cmd : Command) (network : string) : CmdContext C * option error :=
  let store := FlagValue cmd nodeStoreFlag in
  let store :=
    if String.eqb store "" then
      let tp := ctxNodeType ctx in
      match DefaultNodeStorePath env (TypeString env tp) network with
      | (_, Some err) => inr err
      | (s, None) => inl s
      end
    else inl store in
  match store with
  | inr err => (ctx, Some err)
  | inl store =>
      let ctx := WithStorePath ctx store in
      let nodeConfig := FlagValue cmd nodeConfigFlag in
      if negb (String.eqb nodeConfig "") then
        match LoadConfig nodeConfig with
        | (_, Some err) =>
            (ctx, Some (ErrString ("cmd: while parsing '" ++ nodeConfigFlag ++ "': " ++ Error err)))
        | (cfg, None) => (WithNodeConfig ctx cfg, None)
        end
      else
        let path := StorePath ctx in
        match Expand env (FilepathClean env path) with
        | (_, Some err) => (ctx, Some err)
        | (expanded, None) =>
            match LoadConfig (FilepathJoin env expanded "config.toml") with
            | (cfg, None) => (WithNodeConfig ctx cfg, None)
            | (_, Some _) => (ctx, None)
            end
        end
  end.

(** ** Package nodebuilder: metrics and traces (nodebuilder/settings.go) *)

(** An [fx.Option] as the functions below build it: values supplied,
    functions invoked (named by their Go names) and option groups. *)
Inductive FxOption : Type :=
| Supply (what : string)
| Invoke (fn : string)
| Options (opts : list FxOption).

(** The functions an option invokes, in the order fx invokes them. *)
Fixpoint invokes (o : FxOption) : list string :=
  match o with
  | Supply _ => []
  | Invoke fn => [fn]
  | Options opts => (fix go (l : list FxOption) : list string :=
                       match l with
                       | [] => []
                       | o :: rest => (invokes o ++ go rest)%list
                       end) opts
  end.

(** A Go function that returns normally or panics. *)
Inductive Outcome (A : Type) : Type :=
| Returns (a : A)
| Panics (msg : string).
Arguments Returns {A}.
Arguments Panics {A}.

Definition WithMetrics (nodeType : NodeType) : Outcome FxOption :=
  let baseComponents := Options [
    Supply "metricOpts";
    Supply "buildInfo";
    Invoke "initializeMetrics";
    Invoke "state.WithMetrics";
    Invoke "fraud.WithMetrics";
    Invoke "node.WithMetrics";
    Invoke "modheader.WithMetrics";
    Invoke "share.WithDiscoveryMetrics"] in
  let samplingMetrics := Options [
    Invoke "das.WithMetrics";
    Invoke "share.WithPeerManagerMetrics";
    Invoke "share.WithShrexClientMetrics";
    Invoke "share.WithShrexGetterMetrics"] in
  match nodeType with
  | Full => Returns (Options [baseComponents; Invoke "share.WithShrexServerMetrics"; samplingMetrics])
  | Light => Returns (Options [baseComponents; samplingMetrics])
  | Bridge => Returns (Options [baseComponents; Invoke "share.WithShrexServerMetrics"])
  | OtherType _ => Panics "invalid node type"
  end.

(** The OpenTelemetry objects [initializeTraces] and [initializeMetrics]
    build. Exporter and provider options are opaque; they are named. *)
Record Resource := { SchemaURL : string; Attributes : list (string * string) }.

Record TraceExporter := { TraceClientOpts : list string }.

Inductive TracerProvider : Type :=
| SDKTracerProvider (sampler : string) (batcher : TraceExporter) (res : Resource)
| PyroscopeTracerProvider (inner : TracerProvider) (pyroOpts : list string).

Record MetricExporter := { MetricExporterOpts : list string }.

Record MeterProvider := {
  ReaderExporter : MetricExporter;
  ReaderTimeoutSeconds : nat;
  MeterResource : Resource
}.

(** A lifecycle hook whose [OnStop] is [provider.Shutdown(ctx)]. *)
Inductive Hook : Type :=
| OnStopShutdown (provider : MeterProvider).

(** The process-wide state the two functions write: otel's global tracer
    and meter providers and the hooks of the [fx.Lifecycle]. *)
Record Globals := mkGlobals {
  GlobalTracerProvider : option TracerProvider;
  GlobalMeterProvider : option MeterProvider;
  LifecycleHooks : list Hook
}.

(** Whether [otlptrace.New] and [otlpmetrichttp.New] fail for the given
    options. *)
Record OtelEnv := {
  otlptraceNew : list string -> option error;
  otlpmetrichttpNew : list string -> option error
}.

Definition semconvSchemaURL : string := "https://opentelemetry.io/schemas/1.11.0".

Definition nodeResource (env : OSEnv) (nodeType : NodeType) (peerID network version : string)
    : Resource :=
  {| SchemaURL := semconvSchemaURL;
     Attributes := [("service.namespace", "Celestia-" ++ TypeString env nodeType);
                    ("service.name", "semver-" ++ version);
                    ("service.instance.id", network ++ "/" ++ peerID)] |}.

Definition initializeTraces (env : OSEnv) (otel : OtelEnv) (nodeType : NodeType)
    (peerID network version : string) (opts pyroOpts : list string) (g : Globals)
    : Globals * option error :=
  match otlptraceNew otel opts with
  | Some err => (g, Some (ErrString ("creating OTLP trace exporter: " ++ Error err)))
  | None =>
      let exporter := {| TraceClientOpts := opts |} in
      let tp := SDKTracerProvider "AlwaysSample" exporter
                  (nodeResource env nodeType peerID network version) in
      let tp := if Nat.ltb 0 (List.length pyroOpts) then PyroscopeTracerProvider tp pyroOpts else tp in
      (mkGlobals (Some tp) (GlobalMeterProvider g) (LifecycleHooks g), None)
  end.

Definition initializeMetrics (env : OSEnv) (otel : OtelEnv) (peerID : string)
    (nodeType : NodeType) (version network : string) (opts : list string) (g : Globals)
    : Globals * option error :=
  match otlpmetrichttpNew otel opts with
  | Some err => (g, Some err)
  | None =>
      let provider := {| ReaderExporter := {| MetricExporterOpts := opts |};
                         ReaderTimeoutSeconds := 2;
                         MeterResource := nodeResource env nodeType peerID network version |} in
      let hooks := (LifecycleHooks g ++ [OnStopShutdown provider])%list in
      (mkGlobals (GlobalTracerProvider g) (Some provider) hooks, None)
  end.

(** ** Decimal strings, for stating what [ParseIP] and [Atoi] accept *)

Definition isDigit (c : ascii) : bool := (48 <=? byte_of c)%Z && (byte_of c <=? 57)%Z.

Fixpoint all_digits (s : string) : bool :=
  match s with
  | EmptyString => true
  | String c rest => isDigit c && all_digits rest
  end.

(** The value of a string of decimal digits, read after [n]. *)
Fixpoint digits_value_from (n : Z) (s : string) : Z :=
  match s with
  | EmptyString => n
  | String c rest => digits_value_from (n * 10 + (byte_of c - 48))%Z rest
  end.

Definition digits_value (s : string) : Z := digits_value_from 0 s.

(** An octet written in decimal without leading zero. *)
Definition octet_ok (s : string) : bool :=
  all_digits s && Nat.ltb 0 (String.length s) && Nat.leb (String.length s) 3
  && (digits_value s <=? 255)%Z
  && (negb (Nat.ltb 1 (String.length s)) || negb (first_is "0" s)).

Definition dotted (a b c d : string) : string := a ++ "." ++ b ++ "." ++ c ++ "." ++ d.

(** [t] does not continue a run of digits. *)
Definition stops (t : string) : Prop :=
  match t with EmptyString => True | String c _ => isDigit c = false end.

(** ** Concrete environments for the witnesses *)

Definition exampleEnv (home : string) (userHome : string * option error) : OSEnv :=
  {| Getenv := fun k => if String.eqb k "CELESTIA_HOME" then home else "";
     UserHomeDir := userHome;
     HomeDir := ("/root", None);
     FilepathClean := fun p => p;
     FilepathJoin := fun a b => a ++ "/" ++ b;
     UnicodeToLowerMap := fun s => s;
     TypeString := fun t => match t with
                            | Bridge => "Bridge" | Light => "Light" | Full => "Full"
                            | OtherType _ => "unknown" end |}.

Definition exampleCmd (store config : string) : Command :=
  {| FlagValue := fun n => if String.eqb n nodeStoreFlag then store
                           else if String.eqb n nodeConfigFlag then config else "" |}.

Definition exampleCtx : CmdContext unit := mkCmdContext Light None None.

Definition missingConfig (p : string) : unit * option error :=
  (tt, Some (ErrString ("open " ++ p ++ ": no such file or directory"))).

Definition exampleOtel (traceFails metricFails : bool) : OtelEnv :=
  {| otlptraceNew := fun _ => if traceFails then Some (ErrString "dial tcp: connection refused") else None;
     otlpmetrichttpNew := fun _ => if metricFails then Some (ErrString "dial tcp: connection refused") else None |}.

Definition emptyGlobals : Globals := mkGlobals None None [].

(** ** The subtests of [TestCascade] *)

Example TestCascade_SuccessFirst :
  snd (fst (cascadeGetters None [successGetter; timeoutGetter; immediateFailGetter] getEDS)) = None.
Proof. reflexivity. Qed.

Example TestCascade_SuccessSecondAfterFirst :
  snd (fst (cascadeGetters None [timeoutGetter; successGetter] getEDS)) = None.
Proof. reflexivity. Qed.

Example TestCascade_SuccessAfterMultipleTimeouts :
  snd (fst (cascadeGetters None
    [timeoutGetter; immediateFailGetter; timeoutGetter; timeoutGetter; successGetter] getEDS)) = None.
Proof. reflexivity. Qed.

Example TestCascade_Error :
  option_map (fun e => count_nl (Error e))
    (snd (fst (cascadeGetters None [immediateFailGetter; timeoutGetter; immediateFailGetter] getEDS)))
  = Some 2.
Proof. vm_compute. reflexivity. Qed.

Example TestCascade_ContextCanceled :
  option_map (fun e => count_nl (Error e))
    (snd (fst (cascadeGetters canceled_ctx [ctxGetter; ctxGetter; ctxGetter] getEDS)))
  = Some 0.
Proof. vm_compute. reflexivity. Qed.

(** ** Facts about the engine *)

Open Scope list_scope.

Lemma count_nl_app (a b : string) : count_nl (a ++ b)%string = count_nl a + count_nl b.
Proof. induction a as [|c a IH]; simpl; [reflexivity | rewrite IH; lia]. Qed.

Lemma Error_Joined_cons2 (x y : error) (r : list error) :
  Error (Joined (x :: y :: r)) = (Error x ++ newline ++ Error (Joined (y :: r)))%string.
Proof. reflexivity. Qed.

Lemma count_nl_Joined (l : list error) :
  l <> [] ->
  count_nl (Error (Joined l)) = List.length l - 1 + list_sum (map (fun e => count_nl (Error e)) l).
Proof.
  induction l as [|x [|y r] IH]; intros Hne; [congruence | simpl; lia |].
  rewrite Error_Joined_cons2, !count_nl_app, IH by discriminate.
  simpl. lia.
Qed.

Section CascadeFacts.
Context {V : Type} `{GoZero V} (get : Getter -> CtxOp (V * option error)).

(** [g] fails with [e] when invoked with a live context, which stays live. *)
Definition fails_live (g : Getter) (e : error) : Prop :=
  exists v, get g None = ((v, Some e), None).

Lemma cascade_run_fail_prefix (pre : list Getter) (es : list error) (acc : list error)
    (rest : list Getter) :
  Forall2 fails_live pre es ->
  cascade_run get acc (pre ++ rest) None =
  (let '(res, ctx', inv) := cascade_run get (acc ++ es) rest None in
   (res, ctx', map gid pre ++ inv)).
Proof.
  intros HF; revert acc.
  induction HF as [|g e pre es [v Hg] HF IH]; intros acc.
  - simpl. rewrite app_nil_r.
    destruct (cascade_run get acc rest None) as [[res c] inv]; reflexivity.
  - simpl. rewrite Hg, IH, <- app_assoc. simpl.
    destruct (cascade_run get (acc ++ e :: es) rest None) as [[res c] inv]; reflexivity.
Qed.

Lemma Forall_fails_live_Forall2 (pre : list Getter) :
  Forall (fun g => exists e, fails_live g e) pre ->
  exists es, Forall2 fails_live pre es.
Proof.
  induction 1 as [|g pre [e He] _ [es IH]]; [exists []; constructor |].
  exists (e :: es); constructor; assumption.
Qed.

Lemma cascade_run_success_after (pre : list Getter) (s : Getter) (post : list Getter)
    (v : V) (ctx' : Context) :
  Forall (fun g => exists e, fails_live g e) pre ->
  get s None = ((v, None), ctx') ->
  cascade_run get [] (pre ++ s :: post) None = ((v, None), ctx', map gid (pre ++ [s])).
Proof.
  intros HF Hs. destruct (Forall_fails_live_Forall2 pre HF) as [es Hes].
  rewrite (cascade_run_fail_prefix pre es [] (s :: post) Hes). simpl. rewrite Hs.
  rewrite map_app. reflexivity.
Qed.

Lemma cascade_run_invoked_prefix (acc : list error) (gs : list Getter) (ctx : Context) :
  exists k, snd (cascade_run get acc gs ctx) = map gid (firstn k gs)
            /\ Nat.min 1 (List.length gs) <= k.
Proof.
  revert acc ctx; induction gs as [|g gs IH]; intros acc ctx.
  - exists 0; simpl; split; [reflexivity | lia].
  - simpl. destruct (get g ctx) as [[val [e|]] ctx'].
    + destruct ctx' as [cause|].
      * exists 1; simpl; split; [reflexivity | lia].
      * destruct (IH (acc ++ [e]) None) as [k [Hk _]].
        destruct (cascade_run get (acc ++ [e]) gs None) as [[res c] inv] eqn:E.
        exists (S k); simpl in *; split; [rewrite Hk; reflexivity | lia].
    + exists 1; simpl; split; [reflexivity | lia].
Qed.

End CascadeFacts.

(** ** The claims *)

(** C1: when every backend of a non-empty list fails while the caller's
    context stays live, the cascade returns one joined error whose causes
    are the N backend errors in backend order, and its message has exactly
    N-1 more line breaks than its causes have in total (exactly N-1 when
    no cause spans several lines). *)
Theorem cascade_exhaustion_aggregates {V : Type} `{GoZero V}
    (get : Getter -> CtxOp (V * option error)) (gs : list Getter) (es : list error) :
  gs <> [] ->
  Forall2 (fails_live get) gs es ->
  cascadeGetters None gs get = ((zero, Some (Joined es)), None)
  /\ List.length es = List.length gs
  /\ count_nl (Error (Joined es))
     = List.length gs - 1 + list_sum (map (fun e => count_nl (Error e)) es).
Proof.
  intros Hne HF.
  assert (Hlen : List.length es = List.length gs) by (symmetry; eapply Forall2_length; eauto).
  assert (Hes : es <> []) by (destruct es, gs; simpl in *; congruence).
  split; [| split; [exact Hlen |]].
  - unfold cascadeGetters.
    pose proof (cascade_run_fail_prefix get gs es [] [] HF) as E.
    rewrite app_nil_r in E. rewrite E. simpl.
    destruct es as [|e es']; [congruence | reflexivity].
  - rewrite count_nl_Joined by exact Hes. rewrite Hlen. reflexivity.
Qed.

(** C2 (counterexample): a canceled context does not by itself decide the
    outcome. With no backend the no-getters failure is returned, and a
    backend that succeeds without looking at the context has its result
    returned; neither is the cancellation cause. *)
Lemma cascade_canceled_not_always_cause :
  cascadeGetters canceled_ctx [] getEDS = ((None, Some ErrNoGetters), canceled_ctx)
  /\ cascadeGetters canceled_ctx [successGetter; ctxGetter] getEDS = ((None, None), canceled_ctx)
  /\ ErrNoGetters <> Canceled.
Proof. split; [reflexivity | split; [reflexivity | discriminate]]. Qed.

(** C2 (amended): when a backend call returns an error and the outer
    context is canceled at that point (already before the call, when it is
    the first backend, or during it), the cascade stops there, invokes no
    further backend and returns the cancellation cause alone, dropping the
    errors of the earlier backends; a context cause prints on one line. *)
Theorem cascade_canceled_on_error {V : Type} `{GoZero V}
    (get : Getter -> CtxOp (V * option error)) (pre : list Getter) (g : Getter)
    (post : list Getter) (ctx0 : Context) (v : V) (e cause : error) :
  Forall (fun b => exists e', fails_live get b e') pre ->
  (pre = [] \/ ctx0 = None) ->
  get g (match pre with [] => ctx0 | _ => None end) = ((v, Some e), Some cause) ->
  cascade_run get [] (pre ++ g :: post) ctx0
    = ((zero, Some cause), Some cause, map gid (pre ++ [g]))
  /\ (cause = Canceled \/ cause = DeadlineExceeded -> count_nl (Error cause) = 0).
Proof.
  intros HF Hctx Hg. split.
  - destruct (Forall_fails_live_Forall2 get pre HF) as [es Hes].
    destruct pre as [|b pre'].
    + simpl. rewrite Hg. reflexivity.
    + destruct Hctx as [Hctx|Hctx]; [discriminate | subst ctx0].
      rewrite (cascade_run_fail_prefix get _ es [] (g :: post) Hes). simpl. rewrite Hg.
      rewrite map_app. reflexivity.
  - intros [-> | ->]; reflexivity.
Qed.

(** C3: a backend that returns [context.DeadlineExceeded] while the
    caller's context is live is an ordinary failure, wherever it sits
    behind other live failures: its error is accumulated like any other
    and the cascade goes on with the rest of the list, so the next backend
    is invoked; if a later backend succeeds after further live failures,
    its success is returned. Only the context observed after the call
    decides; the error value plays no part. *)
Theorem cascade_backend_timeout_continues {V : Type} `{GoZero V}
    (get : Getter -> CtxOp (V * option error)) (pre : list Getter) (es : list error)
    (g : Getter) (post : list Getter) :
  Forall2 (fails_live get) pre es ->
  fails_live get g DeadlineExceeded ->
  cascade_run get [] (pre ++ g :: post) None
    = (let '(res, ctx', inv) := cascade_run get (es ++ [DeadlineExceeded]) post None in
       (res, ctx', map gid (pre ++ [g]) ++ inv))
  /\ (forall n rest, post = n :: rest ->
        firstn (List.length pre + 2) (invoked None (pre ++ g :: post) get)
        = map gid (pre ++ [g; n]))
  /\ (forall mid s post' v ctx', post = mid ++ s :: post' ->
        Forall (fun b => exists e, fails_live get b e) mid ->
        get s None = ((v, None), ctx') ->
        cascadeGetters None (pre ++ g :: post) get = ((v, None), ctx')).
Proof.
  intros HF Hg.
  assert (HF' : Forall2 (fails_live get) (pre ++ [g]) (es ++ [DeadlineExceeded]))
    by (apply Forall2_app; [exact HF | constructor; [exact Hg | constructor]]).
  assert (Hrun : cascade_run get [] (pre ++ g :: post) None
    = (let '(res, ctx', inv) := cascade_run get (es ++ [DeadlineExceeded]) post None in
       (res, ctx', map gid (pre ++ [g]) ++ inv))).
  { replace (pre ++ g :: post) with ((pre ++ [g]) ++ post) by (rewrite <- app_assoc; reflexivity).
    exact (cascade_run_fail_prefix get (pre ++ [g]) _ [] post HF'). }
  split; [exact Hrun | split].
  - intros n rest ->. unfold invoked. rewrite Hrun.
    destruct (cascade_run_invoked_prefix get (es ++ [DeadlineExceeded]) (n :: rest) None)
      as [k [Hk Hmin]].
    destruct (cascade_run get (es ++ [DeadlineExceeded]) (n :: rest) None) as [[res c] inv].
    simpl in Hk, Hmin. subst inv.
    destruct k as [|k]; [lia |]. simpl firstn.
    assert (Hl : List.length (map gid (pre ++ [g])) = List.length pre + 1)
      by (rewrite List.length_map, List.length_app; reflexivity).
    rewrite firstn_app, Hl, firstn_all2 by lia.
    replace (List.length pre + 2 - (List.length pre + 1)) with 1 by lia.
    simpl. rewrite !map_app. simpl. rewrite <- app_assoc. reflexivity.
  - intros mid s post' v ctx' -> Hmid Hs. unfold cascadeGetters.
    replace (pre ++ g :: mid ++ s :: post') with ((pre ++ g :: mid) ++ s :: post')
      by (rewrite <- app_assoc; reflexivity).
    rewrite (cascade_run_success_after get (pre ++ g :: mid) s post' v ctx'); [reflexivity | | exact Hs].
    apply Forall_app; split; [| constructor; [exists DeadlineExceeded; exact Hg | exact Hmid]].
    clear -HF. induction HF; constructor; [eexists; eassumption | assumption].
Qed.

(** C4: with no backend the cascade fails with the no-getters error,
    whatever the context. *)
Theorem cascade_empty_fails {V : Type} `{GoZero V}
    (get : Getter -> CtxOp (V * option error)) (ctx : Context) :
  cascadeGetters ctx [] get = ((zero, Some ErrNoGetters), ctx)
  /\ snd (fst (cascadeGetters ctx [] get)) <> None.
Proof. split; [reflexivity | discriminate]. Qed.

(** C5: when backend i succeeds and all earlier ones fail with the
    context live, its result is returned with no error, only the backends
    up to i are invoked, and what comes after i plays no part. *)
Theorem cascade_first_success_wins {V : Type} `{GoZero V}
    (get : Getter -> CtxOp (V * option error)) (pre : list Getter) (s : Getter)
    (post : list Getter) (v : V) (ctx' : Context) :
  Forall (fun g => exists e, fails_live get g e) pre ->
  get s None = ((v, None), ctx') ->
  cascadeGetters None (pre ++ s :: post) get = ((v, None), ctx')
  /\ invoked None (pre ++ s :: post) get = map gid (pre ++ [s])
  /\ cascade_run get [] (pre ++ s :: post) None = cascade_run get [] (pre ++ [s]) None.
Proof.
  intros HF Hs. unfold cascadeGetters, invoked.
  rewrite !(cascade_run_success_after get pre s _ v ctx' HF Hs).
  split; [reflexivity | split; reflexivity].
Qed.

(** C6: the result of a fixed succeeding backend is the same at any
    position behind failing backends. *)
Theorem cascade_success_position_independent {V : Type} `{GoZero V}
    (get : Getter -> CtxOp (V * option error)) (pre1 pre2 : list Getter) (s : Getter)
    (post1 post2 : list Getter) (v : V) (ctx' : Context) :
  Forall (fun g => exists e, fails_live get g e) pre1 ->
  Forall (fun g => exists e, fails_live get g e) pre2 ->
  get s None = ((v, None), ctx') ->
  fst (cascadeGetters None (pre1 ++ s :: post1) get)
  = fst (cascadeGetters None (pre2 ++ s :: post2) get)
  /\ fst (cascadeGetters None (pre1 ++ s :: post1) get) = (v, None).
Proof.
  intros HF1 HF2 Hs. unfold cascadeGetters.
  rewrite (cascade_run_success_after get pre1 s post1 v ctx' HF1 Hs),
          (cascade_run_success_after get pre2 s post2 v ctx' HF2 Hs).
  split; reflexivity.
Qed.

(** C7: both methods of a cascade getter are the engine over its children
    with the matching operation, for every input and context. *)
Theorem cascade_getter_delegates (id : nat) (getters : list Getter) (root : option Root)
    (row col : nat) (ctx : Context) :
  GetShare (NewCascadeGetter id getters) root row col ctx
    = cascadeGetters ctx getters (fun g => GetShare g root row col)
  /\ GetEDS (NewCascadeGetter id getters) root ctx
    = cascadeGetters ctx getters (fun g => GetEDS g root).
Proof. split; reflexivity. Qed.

(** C8: the getters one call invokes are a prefix of the list, in list
    order, starting with the first getter whenever the list is non-empty;
    a call depends on nothing but its context, list and operation. *)
Theorem cascade_invokes_prefix {V : Type} `{GoZero V}
    (get : Getter -> CtxOp (V * option error)) (gs : list Getter) (ctx : Context) :
  exists k, invoked ctx gs get = map gid (firstn k gs) /\ Nat.min 1 (List.length gs) <= k.
Proof.
  destruct (cascade_run_invoked_prefix get [] gs ctx) as [k [Hk Hmin]].
  exists k. unfold invoked.
  destruct (cascade_run get [] gs ctx) as [[res c] inv]. simpl in Hk.
  split; assumption.
Qed.

(** C9: a backend that answers a nil square with a nil error is a success:
    the cascade returns the nil square with no error. *)
Theorem cascade_nil_payload_success
    (get : Getter -> CtxOp (option ExtendedDataSquare * option error))
    (pre : list Getter) (s : Getter) (post : list Getter) (ctx' : Context) :
  Forall (fun g => exists e, fails_live get g e) pre ->
  get s None = ((None, None), ctx') ->
  cascadeGetters None (pre ++ s :: post) get = ((None, None), ctx').
Proof.
  intros HF Hs. unfold cascadeGetters.
  rewrite (cascade_run_success_after get pre s post None ctx' HF Hs). reflexivity.
Qed.

(** C10: [Validate] accepts exactly the configurations whose address
    parses as an IP and whose port [Atoi] accepts; "-1" and "99999" are
    accepted ports, and [DefaultConfig] validates. *)
Theorem validate_spec :
  (forall cfg, Validate cfg = None <-> ParseIP (Address cfg) <> None /\ snd (Atoi (Port cfg)) = None)
  /\ (forall addr, ParseIP addr <> None ->
        Validate (mkConfig addr "-1") = None /\ Validate (mkConfig addr "99999") = None)
  /\ Validate DefaultConfig = None.
Proof.
  split; [| split].
  - intros [addr port]; unfold Validate; simpl.
    destruct (ParseIP addr) as [ip|]; [| split; [discriminate | intros [H _]; congruence]].
    destruct (Atoi port) as [n [e|]]; simpl.
    + split; [discriminate | intros [_ H]; discriminate].
    + split; [intros _; split; [discriminate | reflexivity] | reflexivity].
  - intros addr Hip; unfold Validate; simpl.
    destruct (ParseIP addr); [split; reflexivity | congruence].
  - vm_compute. reflexivity.
Qed.

(** ** Witnesses: the claims at the scenarios of [TestCascade] *)

Definition failImmediately : error := ErrString "second getter fails immediately".

Lemma cascade_exhaustion_aggregates_witness :
  [immediateFailGetter; timeoutGetter; immediateFailGetter] <> []
  /\ Forall2 (fails_live getEDS) [immediateFailGetter; timeoutGetter; immediateFailGetter]
       [failImmediately; DeadlineExceeded; failImmediately]
  /\ (cascadeGetters None [immediateFailGetter; timeoutGetter; immediateFailGetter] getEDS
        = ((None, Some (Joined [failImmediately; DeadlineExceeded; failImmediately])), None)
      /\ List.length [failImmediately; DeadlineExceeded; failImmediately]
         = List.length [immediateFailGetter; timeoutGetter; immediateFailGetter]
      /\ count_nl (Error (Joined [failImmediately; DeadlineExceeded; failImmediately]))
         = List.length [immediateFailGetter; timeoutGetter; immediateFailGetter] - 1
           + list_sum (map (fun e => count_nl (Error e))
                           [failImmediately; DeadlineExceeded; failImmediately])).
Proof.
  assert (H1 : [immediateFailGetter; timeoutGetter; immediateFailGetter] <> []) by discriminate.
  assert (H2 : Forall2 (fails_live getEDS) [immediateFailGetter; timeoutGetter; immediateFailGetter]
                 [failImmediately; DeadlineExceeded; failImmediately])
    by (repeat constructor; eexists; reflexivity).
  split; [exact H1 | split; [exact H2 |]].
  exact (cascade_exhaustion_aggregates getEDS _ _ H1 H2).
Defined.

Lemma cascade_canceled_on_error_witness :
  Forall (fun b => exists e', fails_live getEDS b e') []
  /\ ([] : list Getter) = [] /\ getEDS ctxGetter canceled_ctx = ((None, Some Canceled), Some Canceled)
  /\ (cascade_run getEDS [] ([] ++ ctxGetter :: [ctxGetter; ctxGetter]) canceled_ctx
        = ((None, Some Canceled), Some Canceled, map gid ([] ++ [ctxGetter]))
      /\ (Canceled = Canceled \/ Canceled = DeadlineExceeded -> count_nl (Error Canceled) = 0)).
Proof.
  assert (Hg : getEDS ctxGetter canceled_ctx = ((None, Some Canceled), Some Canceled)) by reflexivity.
  split; [constructor | split; [reflexivity | split; [exact Hg |]]].
  exact (cascade_canceled_on_error getEDS [] ctxGetter [ctxGetter; ctxGetter] canceled_ctx
           None Canceled Canceled (Forall_nil _) (or_introl eq_refl) Hg).
Defined.

(** The spec's scenario of a timeout first, then an immediate failure
    and two more timeouts, then a success. *)
Definition timeoutScenario : list Getter :=
  [immediateFailGetter; timeoutGetter; timeoutGetter; successGetter].

Lemma cascade_backend_timeout_continues_witness :
  Forall2 (fails_live getEDS) [] []
  /\ fails_live getEDS timeoutGetter DeadlineExceeded
  /\ (cascade_run getEDS [] ([] ++ timeoutGetter :: timeoutScenario) None
        = (let '(res, ctx', inv) := cascade_run getEDS ([] ++ [DeadlineExceeded]) timeoutScenario None in
           (res, ctx', map gid ([] ++ [timeoutGetter]) ++ inv))
      /\ (forall n rest, timeoutScenario = n :: rest ->
            firstn (List.length ([] : list Getter) + 2) (invoked None ([] ++ timeoutGetter :: timeoutScenario) getEDS)
            = map gid ([] ++ [timeoutGetter; n]))
      /\ (forall mid s post' v ctx', timeoutScenario = mid ++ s :: post' ->
            Forall (fun b => exists e, fails_live getEDS b e) mid ->
            getEDS s None = ((v, None), ctx') ->
            cascadeGetters None ([] ++ timeoutGetter :: timeoutScenario) getEDS = ((v, None), ctx'))).
Proof.
  assert (H2 : fails_live getEDS timeoutGetter DeadlineExceeded) by (eexists; reflexivity).
  split; [constructor | split; [exact H2 |]].
  exact (cascade_backend_timeout_continues getEDS [] [] timeoutGetter timeoutScenario (Forall2_nil _) H2).
Defined.

Definition multipleTimeouts : list Getter :=
  [timeoutGetter; immediateFailGetter; timeoutGetter; timeoutGetter].

Lemma cascade_first_success_wins_witness :
  Forall (fun g => exists e, fails_live getEDS g e) multipleTimeouts
  /\ getEDS successGetter None = ((None, None), None)
  /\ (cascadeGetters None (multipleTimeouts ++ successGetter :: [ctxGetter]) getEDS = ((None, None), None)
      /\ invoked None (multipleTimeouts ++ successGetter :: [ctxGetter]) getEDS
         = map gid (multipleTimeouts ++ [successGetter])
      /\ cascade_run getEDS [] (multipleTimeouts ++ successGetter :: [ctxGetter]) None
         = cascade_run getEDS [] (multipleTimeouts ++ [successGetter]) None).
Proof.
  assert (H1 : Forall (fun g => exists e, fails_live getEDS g e) multipleTimeouts)
    by (repeat constructor; do 2 eexists; reflexivity).
  assert (H2 : getEDS successGetter None = ((None, None), None)) by reflexivity.
  split; [exact H1 | split; [exact H2 |]].
  exact (cascade_first_success_wins getEDS multipleTimeouts successGetter [ctxGetter] None None H1 H2).
Defined.

Lemma cascade_success_position_independent_witness :
  Forall (fun g => exists e, fails_live getEDS g e) []
  /\ Forall (fun g => exists e, fails_live getEDS g e) [immediateFailGetter; timeoutGetter]
  /\ getEDS successGetter None = ((None, None), None)
  /\ (fst (cascadeGetters None ([] ++ successGetter :: [timeoutGetter; immediateFailGetter]) getEDS)
      = fst (cascadeGetters None ([immediateFailGetter; timeoutGetter] ++ successGetter :: []) getEDS)
      /\ fst (cascadeGetters None ([] ++ successGetter :: [timeoutGetter; immediateFailGetter]) getEDS)
         = (None, None)).
Proof.
  assert (H1 : Forall (fun g => exists e, fails_live getEDS g e) [immediateFailGetter; timeoutGetter])
    by (repeat constructor; do 2 eexists; reflexivity).
  assert (H2 : getEDS successGetter None = ((None, None), None)) by reflexivity.
  split; [constructor | split; [exact H1 | split; [exact H2 |]]].
  exact (cascade_success_position_independent getEDS [] [immediateFailGetter; timeoutGetter]
           successGetter [timeoutGetter; immediateFailGetter] [] None None (Forall_nil _) H1 H2).
Defined.

Lemma cascade_nil_payload_success_witness :
  Forall (fun g => exists e, fails_live getEDS g e) []
  /\ getEDS successGetter None = ((None, None), None)
  /\ cascadeGetters None ([] ++ successGetter :: []) getEDS = ((None, None), None).
Proof.
  assert (H2 : getEDS successGetter None = ((None, None), None)) by reflexivity.
  split; [constructor | split; [exact H2 |]].
  exact (cascade_nil_payload_success getEDS [] successGetter [] None (Forall_nil _) H2).
Defined.

(** ** Further properties of the gateway, cmd and nodebuilder code *)

Lemma isDigit_bounds (c : ascii) :
  isDigit c = true -> (0 <= byte_of c - 48 <= 9)%Z.
Proof. unfold isDigit. rewrite andb_true_iff, !Z.leb_le. lia. Qed.

Lemma digits_value_from_ge (s : string) (n : Z) :
  all_digits s = true -> (0 <= n)%Z -> (n <= digits_value_from n s)%Z.
Proof.
  revert n; induction s as [|c s IH]; intros n Hd Hn; simpl in *; [lia |].
  apply andb_true_iff in Hd as [Hc Hd]. apply isDigit_bounds in Hc.
  specialize (IH (n * 10 + (byte_of c - 48))%Z Hd). lia.
Qed.


Lemma dtoi_loop_digits (s t : string) (n : Z) (i : nat) :
  all_digits s = true -> (0 <= n)%Z -> (digits_value_from n s < big)%Z -> stops t ->
  dtoi_loop (s ++ t) n i
  = if Nat.eqb (i + String.length s) 0 then (0%Z, 0, false)
    else (digits_value_from n s, i + String.length s, true).
Proof.
  revert n i; induction s as [|c s IH]; intros n i Hd Hn Hb Ht; simpl in *.
  - rewrite Nat.add_0_r. destruct t as [|c t]; simpl; [reflexivity |].
    simpl in Ht. unfold isDigit in Ht. rewrite Ht. reflexivity.
  - apply andb_true_iff in Hd as [Hc Hd].
    pose proof (isDigit_bounds c Hc) as Hcb. unfold isDigit in Hc. rewrite Hc.
    pose proof (digits_value_from_ge s (n * 10 + (byte_of c - 48))%Z Hd ltac:(lia)).
    replace (big <=? n * 10 + (byte_of c - 48))%Z with false by (symmetry; apply Z.leb_gt; lia).
    rewrite IH by (auto; lia).
    replace (S i + String.length s) with (i + S (String.length s)) by lia. reflexivity.
Qed.

Lemma atoi_fast_digits (s : string) (n : Z) :
  all_digits s = true -> atoi_fast s n = Some (digits_value_from n s).
Proof.
  revert n; induction s as [|c s IH]; intros n Hd; simpl in *; [reflexivity |].
  apply andb_true_iff in Hd as [Hc Hd]. apply isDigit_bounds in Hc.
  rewrite Z.mod_small by lia.
  replace (9 <? byte_of c - 48)%Z with false by (symmetry; apply Z.ltb_ge; lia).
  apply IH, Hd.
Qed.

Lemma substring_all (s : string) : substring 0 (String.length s) s = s.
Proof. induction s as [|c s IH]; simpl; [reflexivity | rewrite IH; reflexivity]. Qed.

Lemma length_app (a b : string) : String.length (a ++ b) = String.length a + String.length b.
Proof. induction a as [|c a IH]; simpl; [reflexivity | rewrite IH; reflexivity]. Qed.

Lemma substring_after (a b : string) :
  substring (String.length a) (String.length (a ++ b) - String.length a) (a ++ b) = b.
Proof.
  rewrite length_app. replace (String.length a + String.length b - String.length a)
    with (String.length b) by lia.
  induction a as [|c a IH]; simpl; [apply substring_all | exact IH].
Qed.

Lemma digit_not (c : ascii) (x : ascii) :
  isDigit c = true -> isDigit x = false -> Ascii.eqb x c = false.
Proof.
  intros Hc Hx. destruct (Ascii.eqb_spec x c) as [->|]; [congruence | reflexivity].
Qed.

Lemma isDigit_first_is (c x : ascii) (s : string) :
  isDigit c = true -> isDigit x = false -> first_is x (String c s) = false.
Proof. intros Hc Hx. simpl. destruct (Ascii.eqb_spec x c) as [->|]; [congruence | reflexivity]. Qed.

Theorem atoi_digit_strings (s : string) :
  all_digits s = true -> 0 < String.length s ->
  (String.length s < 19 -> Atoi s = (digits_value s, None))
  /\ (String.length s < 18 ->
      Atoi (String "+" s) = (digits_value s, None)
      /\ Atoi (String "-" s) = ((- digits_value s)%Z, None)).
Proof.
  intros Hd Hl0. destruct s as [|c s']; [simpl in Hl0; lia |].
  assert (Hc : isDigit c = true) by (simpl in Hd; apply andb_true_iff in Hd; tauto).
  unfold Atoi.
  rewrite !(isDigit_first_is c "-" s' Hc eq_refl), !(isDigit_first_is c "+" s' Hc eq_refl).
  split; [| intros Hl; split].
  - intros Hl.
    replace (Nat.ltb 0 (String.length (String c s')) && Nat.ltb (String.length (String c s')) 19)
      with true by (symmetry; apply andb_true_iff; split; apply Nat.ltb_lt; lia).
    simpl orb. cbv iota beta. rewrite atoi_fast_digits by exact Hd. reflexivity.
  - replace (Nat.ltb 0 (String.length (String "+" (String c s')))
             && Nat.ltb (String.length (String "+" (String c s'))) 19)
      with true by (symmetry; apply andb_true_iff; split; apply Nat.ltb_lt; simpl in *; lia).
    cbn [first_is orb andb]. simpl (Ascii.eqb "+" "+"). simpl (Ascii.eqb "-" "+").
    cbn [orb andb negb].
    replace (substring 1 (String.length (String "+" (String c s')) - 1) (String "+" (String c s')))
      with (String c s') by (symmetry; change (substring 0 (String.length (String c s')) (String c s') = String c s'); apply substring_all).
    cbn [String.eqb andb]. rewrite atoi_fast_digits by exact Hd. reflexivity.
  - replace (Nat.ltb 0 (String.length (String "-" (String c s')))
             && Nat.ltb (String.length (String "-" (String c s'))) 19)
      with true by (symmetry; apply andb_true_iff; split; apply Nat.ltb_lt; simpl in *; lia).
    cbn [first_is orb andb]. simpl (Ascii.eqb "-" "-").
    cbn [orb andb negb].
    replace (substring 1 (String.length (String "-" (String c s')) - 1) (String "-" (String c s')))
      with (String c s') by (symmetry; change (substring 0 (String.length (String c s')) (String c s') = String c s'); apply substring_all).
    cbn [String.eqb andb]. rewrite atoi_fast_digits by exact Hd. reflexivity.
Qed.

Lemma append_nil_r (s : string) : (s ++ "")%string = s.
Proof. induction s as [|c s IH]; simpl; [reflexivity | rewrite IH; reflexivity]. Qed.

Lemma octet_ok_parts (a : string) :
  octet_ok a = true ->
  all_digits a = true /\ 0 < String.length a /\ (digits_value a <= 255)%Z
  /\ (Nat.ltb 1 (String.length a) && first_is "0" a) = false.
Proof.
  unfold octet_ok. rewrite !andb_true_iff, Nat.ltb_lt, Z.leb_le.
  intros [[[[Hd Hl] _] Hv] Hz]. split; [exact Hd | split; [exact Hl | split; [exact Hv |]]].
  destruct (Nat.ltb 1 (String.length a)), (first_is "0" a); simpl in *; congruence.
Qed.

Lemma parseIPv4_loop_octet (k : nat) (i0 : bool) (a t : string) :
  octet_ok a = true -> stops t ->
  parseIPv4_loop (S k) i0 (if i0 then a ++ t else "." ++ (a ++ t))
  = option_map (cons (digits_value a)) (parseIPv4_loop k false t).
Proof.
  intros Ho Ht. destruct (octet_ok_parts a Ho) as [Hd [Hl [Hv Hz]]].
  assert (Hdt : dtoi (a ++ t) = (digits_value a, String.length a, true)).
  { unfold dtoi, digits_value. rewrite dtoi_loop_digits
      by (first [exact Hd | exact Ht | lia | (unfold big, digits_value in *; lia)]).
    destruct (String.length a); [lia | reflexivity]. }
  assert (Hfz : first_is "0" (a ++ t) = first_is "0" a) by (destruct a; [simpl in Hl; lia | reflexivity]).
  assert (Hne : String.eqb (a ++ t) "" = false) by (destruct a; [simpl in Hl; lia | reflexivity]).
  assert (Hbody : forall s, s = (a ++ t)%string ->
    (let '(n, c, ok) := dtoi s in
     if negb ok || (255 <? n)%Z then None
     else if Nat.ltb 1 c && first_is "0" s then None
     else option_map (cons n) (parseIPv4_loop k false (substring c (String.length s - c) s)))
    = option_map (cons (digits_value a)) (parseIPv4_loop k false t)).
  { intros s ->. rewrite Hdt, Hfz, Hz.
    replace (255 <? digits_value a)%Z with false by (symmetry; apply Z.ltb_ge; lia).
    simpl negb. simpl orb. rewrite substring_after. reflexivity. }
  destruct i0.
  - cbn [parseIPv4_loop]. rewrite Hne. apply Hbody. reflexivity.
  - cbn [parseIPv4_loop String.eqb first_is]. simpl (Ascii.eqb "." ".").
    cbv iota.
    assert (Hsub : substring 1 (String.length ("." ++ (a ++ t)) - 1) ("." ++ (a ++ t))
                   = (a ++ t)%string)
      by (simpl; rewrite Nat.sub_0_r; apply substring_all).
    rewrite Hsub. apply Hbody. reflexivity.
Qed.

Theorem parseIP_dotted_quad (a b c d : string) :
  octet_ok a = true -> octet_ok b = true -> octet_ok c = true -> octet_ok d = true ->
  ParseIP (dotted a b c d)
  = Some (IPv4 (digits_value a) (digits_value b) (digits_value c) (digits_value d)).
Proof.
  intros Ha Hb Hc Hd.
  assert (Hscan : forall x t full, all_digits x = true ->
            ParseIP_scan (x ++ t) full = ParseIP_scan t full).
  { induction x as [|y x IH]; intros t full Hx; [reflexivity |].
    simpl in Hx. apply andb_true_iff in Hx as [Hy Hx].
    simpl. rewrite (Ascii.eqb_sym y "."), (Ascii.eqb_sym y ":").
    rewrite (digit_not y "." Hy eq_refl), (digit_not y ":" Hy eq_refl). apply IH, Hx. }
  unfold ParseIP, dotted.
  assert (Hscan' : all_digits a = true) by (apply octet_ok_parts; exact Ha).
  rewrite (Hscan a _ _ Hscan').
  transitivity (parseIPv4 (a ++ "." ++ b ++ "." ++ c ++ "." ++ d)); [reflexivity |].
  unfold parseIPv4.
  rewrite (parseIPv4_loop_octet 3 true a ("." ++ b ++ "." ++ c ++ "." ++ d) Ha eq_refl).
  rewrite (parseIPv4_loop_octet 2 false b ("." ++ c ++ "." ++ d) Hb eq_refl).
  rewrite (parseIPv4_loop_octet 1 false c ("." ++ d) Hc eq_refl).
  pose proof (parseIPv4_loop_octet 0 false d "" Hd I) as Hlast.
  rewrite append_nil_r in Hlast. rewrite Hlast.
  reflexivity.
Qed.

Theorem validate_accepts_dotted_quad (a b c d port : string) :
  octet_ok a = true -> octet_ok b = true -> octet_ok c = true -> octet_ok d = true ->
  all_digits port = true -> 0 < String.length port < 19 ->
  Validate (mkConfig (dotted a b c d) port) = None.
Proof.
  intros Ha Hb Hc Hd Hp Hl. unfold Validate; simpl.
  rewrite parseIP_dotted_quad by assumption.
  destruct (atoi_digit_strings port Hp ltac:(lia)) as [Hu _].
  rewrite Hu by lia. reflexivity.
Qed.

Theorem validate_rejects_empty_fields (addr port : string) :
  Validate (mkConfig "" port) <> None /\ Validate (mkConfig addr "") <> None.
Proof.
  split; [discriminate |].
  unfold Validate; simpl. destruct (ParseIP addr); discriminate.
Qed.

Lemma lowerASCII_props (s : string) :
  isASCII s = true ->
  isASCII (lowerASCII s) = true /\ lowerASCII (lowerASCII s) = lowerASCII s.
Proof.
  induction s as [|c s IH]; intros Ha; [split; reflexivity |].
  cbn [isASCII] in Ha. apply andb_true_iff in Ha as [Hc Hs]. destruct (IH Hs) as [IH1 IH2].
  unfold byte_of in Hc. apply Z.ltb_lt in Hc.
  cbn [lowerASCII isASCII]. rewrite IH1, IH2.
  destruct (isUpperByte c) eqn:Hu.
  - unfold isUpperByte, byte_of in Hu.
    apply andb_true_iff in Hu as [Hu1 Hu2]. apply Z.leb_le in Hu1, Hu2.
    assert (Hn : nat_of_ascii (ascii_of_nat (nat_of_ascii c + 32)) = nat_of_ascii c + 32)
      by (apply nat_ascii_embedding; lia).
    unfold isUpperByte, byte_of. rewrite Hn.
    replace ((65 <=? Z.of_nat (nat_of_ascii c + 32)) && (Z.of_nat (nat_of_ascii c + 32) <=? 90))%Z
      with false by (symmetry; apply andb_false_iff; right; apply Z.leb_gt; lia).
    replace (Z.of_nat (nat_of_ascii c + 32) <? 128)%Z with true by (symmetry; apply Z.ltb_lt; lia).
    split; reflexivity.
  - rewrite Hu. unfold byte_of.
    replace (Z.of_nat (nat_of_ascii c) <? 128)%Z with true by (symmetry; apply Z.ltb_lt; lia).
    split; reflexivity.
Qed.

Theorem defaultNodeStorePath_case_insensitive (env : OSEnv) (tp network : string) :
  isASCII tp = true -> isASCII network = true ->
  DefaultNodeStorePath env tp network
  = DefaultNodeStorePath env (ToLower env tp) (ToLower env network).
Proof.
  intros Ht Hn. destruct (lowerASCII_props tp Ht) as [Ht1 Ht2].
  destruct (lowerASCII_props network Hn) as [Hn1 Hn2].
  unfold DefaultNodeStorePath, ToLower. rewrite Ht, Hn, Ht1, Hn1, Ht2, Hn2. reflexivity.
Qed.

Theorem parseNodeFlags_store_flag {C : Type} (env : OSEnv) (LoadConfig : string -> C * option error)
    (ctx : CmdContext C) (cmd : Command) (network : string) :
  FlagValue cmd nodeStoreFlag <> "" ->
  ctxStorePath (fst (ParseNodeFlags env LoadConfig ctx cmd network))
  = Some (FlagValue cmd nodeStoreFlag).
Proof.
  intros Hs. unfold ParseNodeFlags.
  destruct (String.eqb_spec (FlagValue cmd nodeStoreFlag) ""); [contradiction |].
  destruct (negb (String.eqb (FlagValue cmd nodeConfigFlag) "")).
  - destruct (LoadConfig (FlagValue cmd nodeConfigFlag)) as [cfg [e|]]; reflexivity.
  - destruct (Expand env _) as [expanded [e|]]; [reflexivity |].
    destruct (LoadConfig _) as [cfg [e|]]; reflexivity.
Qed.

Theorem parseNodeFlags_no_config_flag {C : Type} (env : OSEnv)
    (LoadConfig1 LoadConfig2 : string -> C * option error) (ctx : CmdContext C) (cmd : Command)
    (network : string) :
  FlagValue cmd nodeConfigFlag = "" ->
  snd (ParseNodeFlags env LoadConfig1 ctx cmd network)
  = snd (ParseNodeFlags env LoadConfig2 ctx cmd network)
  /\ ctxStorePath (fst (ParseNodeFlags env LoadConfig1 ctx cmd network))
     = ctxStorePath (fst (ParseNodeFlags env LoadConfig2 ctx cmd network)).
Proof.
  intros Hc. unfold ParseNodeFlags. rewrite Hc. simpl negb. cbv iota.
  destruct (if String.eqb (FlagValue cmd nodeStoreFlag) "" then _ else _) as [store|e];
    [| split; reflexivity].
  destruct (Expand env _) as [expanded [e|]]; [split; reflexivity |].
  destruct (LoadConfig1 _) as [c1 [e1|]], (LoadConfig2 _) as [c2 [e2|]]; split; reflexivity.
Qed.

Theorem expand_paths (env : OSEnv) :
  (forall path, first_is "~" path = false -> Expand env path = (path, None))
  /\ (forall c rest, c <> "/"%char -> c <> "\"%char ->
        Expand env (String "~" (String c rest))
        = ("", Some (ErrString "cannot expand user-specific home dir"))).
Proof.
  split.
  - intros [|c rest] H; [reflexivity |].
    change (Ascii.eqb "~" c = false) in H. rewrite Ascii.eqb_sym in H.
    unfold Expand. cbv beta iota zeta. rewrite H. reflexivity.
  - intros c rest H1 H2. unfold Expand. simpl (negb (Ascii.eqb "~" "~")). cbv iota.
    destruct (Ascii.eqb_spec c "/"); [contradiction |].
    destruct (Ascii.eqb_spec c "\"); [contradiction |]. reflexivity.
Qed.

Theorem withMetrics_outcome (nodeType : NodeType) :
  match WithMetrics nodeType with
  | Returns o =>
      firstn 6 (invokes o)
      = ["initializeMetrics"; "state.WithMetrics"; "fraud.WithMetrics"; "node.WithMetrics";
         "modheader.WithMetrics"; "share.WithDiscoveryMetrics"]
      /\ NoDup (invokes o)
      /\ (forall raw, nodeType <> OtherType raw)
  | Panics msg => msg = "invalid node type" /\ exists raw, nodeType = OtherType raw
  end.
Proof.
  destruct nodeType as [| | |raw]; simpl;
    [split; [reflexivity | split; [repeat constructor; simpl; intuition discriminate
                                   | intros raw; discriminate]] ..
    | split; [reflexivity | exists raw; reflexivity]].
Qed.

Theorem withMetrics_shrex_server (nodeType : NodeType) (o : FxOption) :
  WithMetrics nodeType = Returns o ->
  (In "share.WithShrexServerMetrics" (invokes o) <-> nodeType = Full \/ nodeType = Bridge).
Proof.
  intros H. destruct nodeType; simpl in H; inversion H; subst; simpl;
    intuition discriminate.
Qed.

Theorem withMetrics_sampling (nodeType : NodeType) (o : FxOption) :
  WithMetrics nodeType = Returns o ->
  forall fn, In fn ["das.WithMetrics"; "share.WithPeerManagerMetrics";
                    "share.WithShrexClientMetrics"; "share.WithShrexGetterMetrics"] ->
  (In fn (invokes o) <-> nodeType = Full \/ nodeType = Light).
Proof.
  intros H fn Hfn. simpl in Hfn.
  destruct nodeType; simpl in H; inversion H; subst; simpl;
    repeat destruct Hfn as [<- | Hfn]; try contradiction; intuition discriminate.
Qed.

Theorem initialize_traces_metrics_commute (env : OSEnv) (otel : OtelEnv) (nodeType : NodeType)
    (peerID network version : string) (traceOpts pyroOpts metricOpts : list string) (g : Globals) :
  let tr := initializeTraces env otel nodeType peerID network version traceOpts pyroOpts in
  let me := initializeMetrics env otel peerID nodeType version network metricOpts in
  fst (me (fst (tr g))) = fst (tr (fst (me g)))
  /\ snd (tr g) = snd (tr (fst (me g)))
  /\ snd (me g) = snd (me (fst (tr g))).
Proof.
  simpl. unfold initializeTraces, initializeMetrics.
  destruct (otlptraceNew otel traceOpts), (otlpmetrichttpNew otel metricOpts);
    destruct g; simpl; split; try split; reflexivity.
Qed.

Theorem parseNodeFlags_celestia_home_store {C : Type} (env : OSEnv)
    (LoadConfig : string -> C * option error) (ctx : CmdContext C) (cmd : Command)
    (network home : string) :
  FlagValue cmd nodeStoreFlag = "" ->
  Getenv env "CELESTIA_HOME" = home -> home <> "" ->
  ctxStorePath (fst (ParseNodeFlags env LoadConfig ctx cmd network))
  = Some (home ++ "/.celestia-" ++ ToLower env (TypeString env (ctxNodeType ctx))
          ++ "-" ++ ToLower env network)%string.
Proof.
  intros Hs He Hh. unfold ParseNodeFlags, DefaultNodeStorePath.
  rewrite Hs, He. simpl String.eqb at 1. cbv iota.
  destruct (String.eqb_spec home ""); [contradiction |].
  destruct (negb (String.eqb (FlagValue cmd nodeConfigFlag) "")).
  - destruct (LoadConfig (FlagValue cmd nodeConfigFlag)) as [cfg [e|]]; reflexivity.
  - destruct (Expand env _) as [expanded [e|]]; [reflexivity |].
    destruct (LoadConfig _) as [cfg [e|]]; reflexivity.
Qed.

Theorem parseNodeFlags_missing_config_ok {C : Type} (env : OSEnv)
    (LoadConfig : string -> C * option error) (ctx : CmdContext C) (cmd : Command)
    (network : string) :
  FlagValue cmd nodeConfigFlag = "" ->
  FlagValue cmd nodeStoreFlag <> "" ->
  first_is "~" (FilepathClean env (FlagValue cmd nodeStoreFlag)) = false ->
  snd (ParseNodeFlags env LoadConfig ctx cmd network) = None.
Proof.
  intros Hc Hs Ht. unfold ParseNodeFlags. rewrite Hc.
  destruct (String.eqb_spec (FlagValue cmd nodeStoreFlag) ""); [contradiction |].
  simpl negb. cbv iota. unfold StorePath, WithStorePath. simpl.
  assert (He : Expand env (FilepathClean env (FlagValue cmd nodeStoreFlag))
               = (FilepathClean env (FlagValue cmd nodeStoreFlag), None)).
  { destruct (FilepathClean env (FlagValue cmd nodeStoreFlag)) as [|c rest]; [reflexivity |].
    change (Ascii.eqb "~" c = false) in Ht. unfold Expand. rewrite Ascii.eqb_sym, Ht. reflexivity. }
  rewrite He. destruct (LoadConfig _) as [cfg [e|]]; reflexivity.
Qed.

(** ** Witnesses of the further properties *)

Lemma atoi_digit_strings_witness :
  all_digits "26658" = true /\ 0 < String.length "26658"
  /\ ((String.length "26658" < 19 -> Atoi "26658" = (digits_value "26658", None))
      /\ (String.length "26658" < 18 ->
          Atoi (String "+" "26658") = (digits_value "26658", None)
          /\ Atoi (String "-" "26658") = ((- digits_value "26658")%Z, None))).
Proof.
  assert (H1 : all_digits "26658" = true) by reflexivity.
  assert (H2 : 0 < String.length "26658") by (simpl; lia).
  split; [exact H1 | split; [exact H2 | exact (atoi_digit_strings "26658" H1 H2)]].
Defined.

Lemma parseIP_dotted_quad_witness :
  octet_ok "192" = true /\ octet_ok "168" = true /\ octet_ok "0" = true /\ octet_ok "10" = true
  /\ ParseIP (dotted "192" "168" "0" "10")
     = Some (IPv4 (digits_value "192") (digits_value "168") (digits_value "0") (digits_value "10")).
Proof.
  assert (Ha : octet_ok "192" = true) by reflexivity.
  assert (Hb : octet_ok "168" = true) by reflexivity.
  assert (Hc : octet_ok "0" = true) by reflexivity.
  assert (Hd : octet_ok "10" = true) by reflexivity.
  split; [exact Ha | split; [exact Hb | split; [exact Hc | split; [exact Hd |]]]].
  exact (parseIP_dotted_quad "192" "168" "0" "10" Ha Hb Hc Hd).
Defined.

Lemma validate_accepts_dotted_quad_witness :
  octet_ok "10" = true /\ octet_ok "0" = true /\ octet_ok "0" = true /\ octet_ok "1" = true
  /\ all_digits "8080" = true /\ 0 < String.length "8080" < 19
  /\ Validate (mkConfig (dotted "10" "0" "0" "1") "8080") = None.
Proof.
  assert (Ha : octet_ok "10" = true) by reflexivity.
  assert (Hb : octet_ok "0" = true) by reflexivity.
  assert (Hd : octet_ok "1" = true) by reflexivity.
  assert (Hp : all_digits "8080" = true) by reflexivity.
  assert (Hl : 0 < String.length "8080" < 19) by (simpl; lia).
  split; [exact Ha | split; [exact Hb | split; [exact Hb | split; [exact Hd | split; [exact Hp | split; [exact Hl |]]]]]].
  exact (validate_accepts_dotted_quad "10" "0" "0" "1" "8080" Ha Hb Hb Hd Hp Hl).
Defined.

Lemma defaultNodeStorePath_case_insensitive_witness :
  isASCII "Light" = true /\ isASCII "Mocha-4" = true
  /\ DefaultNodeStorePath (exampleEnv "" ("/home/user", None)) "Light" "Mocha-4"
     = DefaultNodeStorePath (exampleEnv "" ("/home/user", None))
         (ToLower (exampleEnv "" ("/home/user", None)) "Light")
         (ToLower (exampleEnv "" ("/home/user", None)) "Mocha-4").
Proof.
  assert (H1 : isASCII "Light" = true) by reflexivity.
  assert (H2 : isASCII "Mocha-4" = true) by reflexivity.
  split; [exact H1 | split; [exact H2 |]].
  exact (defaultNodeStorePath_case_insensitive _ "Light" "Mocha-4" H1 H2).
Defined.

Lemma parseNodeFlags_store_flag_witness :
  FlagValue (exampleCmd "/srv/celestia" "") nodeStoreFlag <> ""
  /\ ctxStorePath (fst (ParseNodeFlags (exampleEnv "" ("/root", None)) missingConfig exampleCtx
                          (exampleCmd "/srv/celestia" "") "mocha"))
     = Some (FlagValue (exampleCmd "/srv/celestia" "") nodeStoreFlag).
Proof.
  assert (H : FlagValue (exampleCmd "/srv/celestia" "") nodeStoreFlag <> "") by (vm_compute; discriminate).
  split; [exact H | exact (parseNodeFlags_store_flag _ missingConfig exampleCtx _ "mocha" H)].
Defined.

Lemma parseNodeFlags_no_config_flag_witness :
  FlagValue (exampleCmd "~/.celestia-light" "") nodeConfigFlag = ""
  /\ snd (ParseNodeFlags (exampleEnv "" ("/root", None)) missingConfig exampleCtx
            (exampleCmd "~/.celestia-light" "") "mocha")
     = snd (ParseNodeFlags (exampleEnv "" ("/root", None)) (fun _ => (tt, None)) exampleCtx
              (exampleCmd "~/.celestia-light" "") "mocha")
  /\ ctxStorePath (fst (ParseNodeFlags (exampleEnv "" ("/root", None)) missingConfig exampleCtx
                          (exampleCmd "~/.celestia-light" "") "mocha"))
     = ctxStorePath (fst (ParseNodeFlags (exampleEnv "" ("/root", None)) (fun _ => (tt, None))
                            exampleCtx (exampleCmd "~/.celestia-light" "") "mocha")).
Proof.
  assert (H : FlagValue (exampleCmd "~/.celestia-light" "") nodeConfigFlag = "") by reflexivity.
  split; [exact H |].
  exact (parseNodeFlags_no_config_flag _ missingConfig (fun _ => (tt, None)) exampleCtx _ "mocha" H).
Defined.

Lemma withMetrics_shrex_server_witness :
  exists o, WithMetrics Bridge = Returns o
  /\ (In "share.WithShrexServerMetrics" (invokes o) <-> Bridge = Full \/ Bridge = Bridge).
Proof.
  destruct (WithMetrics Bridge) as [o|msg] eqn:E; [| discriminate].
  exists o. split; [reflexivity | exact (withMetrics_shrex_server Bridge o E)].
Defined.

Lemma withMetrics_sampling_witness :
  exists o, WithMetrics Light = Returns o
  /\ (In "das.WithMetrics" (invokes o) <-> Light = Full \/ Light = Light).
Proof.
  destruct (WithMetrics Light) as [o|msg] eqn:E; [| discriminate].
  exists o. split; [reflexivity |].
  apply (withMetrics_sampling Light o E). simpl. left; reflexivity.
Defined.

Lemma parseNodeFlags_celestia_home_store_witness :
  FlagValue (exampleCmd "" "/etc/celestia.toml") nodeStoreFlag = ""
  /\ Getenv (exampleEnv "/data" ("/root", None)) "CELESTIA_HOME" = "/data" /\ "/data" <> ""
  /\ ctxStorePath (fst (ParseNodeFlags (exampleEnv "/data" ("/root", None)) missingConfig exampleCtx
                          (exampleCmd "" "/etc/celestia.toml") "Mocha"))
     = Some ("/data" ++ "/.celestia-"
             ++ ToLower (exampleEnv "/data" ("/root", None))
                  (TypeString (exampleEnv "/data" ("/root", None)) (ctxNodeType exampleCtx))
             ++ "-" ++ ToLower (exampleEnv "/data" ("/root", None)) "Mocha")%string.
Proof.
  assert (H1 : FlagValue (exampleCmd "" "/etc/celestia.toml") nodeStoreFlag = "") by reflexivity.
  assert (H2 : Getenv (exampleEnv "/data" ("/root", None)) "CELESTIA_HOME" = "/data") by reflexivity.
  assert (H3 : "/data" <> "") by discriminate.
  split; [exact H1 | split; [exact H2 | split; [exact H3 |]]].
  exact (parseNodeFlags_celestia_home_store _ missingConfig exampleCtx _ "Mocha" "/data" H1 H2 H3).
Defined.

Lemma parseNodeFlags_missing_config_ok_witness :
  FlagValue (exampleCmd "/srv/celestia" "") nodeConfigFlag = ""
  /\ FlagValue (exampleCmd "/srv/celestia" "") nodeStoreFlag <> ""
  /\ first_is "~" (FilepathClean (exampleEnv "" ("/root", None))
                    (FlagValue (exampleCmd "/srv/celestia" "") nodeStoreFlag)) = false
  /\ snd (ParseNodeFlags (exampleEnv "" ("/root", None)) missingConfig exampleCtx
            (exampleCmd "/srv/celestia" "") "mocha") = None.
Proof.
  assert (H1 : FlagValue (exampleCmd "/srv/celestia" "") nodeConfigFlag = "") by reflexivity.
  assert (H2 : FlagValue (exampleCmd "/srv/celestia" "") nodeStoreFlag <> "") by (vm_compute; discriminate).
  assert (H3 : first_is "~" (FilepathClean (exampleEnv "" ("/root", None))
                 (FlagValue (exampleCmd "/srv/celestia" "") nodeStoreFlag)) = false) by reflexivity.
  split; [exact H1 | split; [exact H2 | split; [exact H3 |]]].
  exact (parseNodeFlags_missing_config_ok _ missingConfig exampleCtx _ "mocha" H1 H2 H3).
Defined.
